(** * smartdata_run.py: the scenario catalog and its hand-over to make_plots

    A shallow embedding of [src/main/python/smart/smartdata_run.py].  The
    script is a sequence of module-level assignments (tuples, lists, one
    list concatenation, one dict literal) followed by two effectful
    statements: the call [smartdata_setup.make_plots(setup_config_dict)]
    and [print("END")]. *)

From Stdlib Require Import ZArith String List.
From stdpp Require Import gmap strings list fin_maps sorting.

Set Warnings "-register-all".

Local Open Scope Z_scope.
Local Open Scope string_scope.

(** ** Python values

    The script only builds integers, strings, tuples and lists; tuples are
    dynamically typed, so a record is a [PyTuple] whose arity and field
    types are checked, not assumed. *)

Inductive pyval : Type :=
| PyInt (z : Z)
| PyStr (s : string)
| PyTuple (fields : list pyval)
| PyList (items : list pyval).

(** Python's [t[k]] on a tuple; [None] stands for the TypeError or
    IndexError the interpreter raises otherwise. *)
Definition field (k : nat) (r : pyval) : option pyval :=
  match r with
  | PyTuple fs => fs !! k
  | _ => None
  end.

Definition as_int (v : pyval) : option Z :=
  match v with PyInt z => Some z | _ => None end.

Definition as_str (v : pyval) : option string :=
  match v with PyStr s => Some s | _ => None end.

Definition int_field (k : nat) (r : pyval) : option Z := field k r ≫= as_int.
Definition str_field (k : nat) (r : pyval) : option string := field k r ≫= as_str.

(** The seven positions of a scenario tuple. *)
Definition rec_id := int_field 0.
Definition rec_year := int_field 1.
Definition rec_horizon_span := int_field 2.
Definition rec_group := str_field 3.
Definition rec_tech_label := str_field 4.
Definition rec_slug := str_field 5.
Definition rec_source_uri := str_field 6.

(** A tuple literal [(i, y, h, "g", "t", "s", "u")] of the script. *)
Definition tuple7 (i y h : Z) (g t s u : string) : pyval :=
  PyTuple [PyInt i; PyInt y; PyInt h; PyStr g; PyStr t; PyStr s; PyStr u].

(** ** The scenario tuples (lines 5-41) *)

Module Scenarios.

Definition baseline_2010 := tuple7 1 2010 15 "base" "Base" "baseline" "https://beam-outputs.s3.amazonaws.com/output/sfbay/sfbay-smart-base-2010__2019-09-20_21-12-45".
Definition a_lt_2010 := tuple7 6 2010 15 "a" "Low Tech" "a_lt" "https://beam-outputs.s3.amazonaws.com/output/sfbay/sfbay-smart-a-lt-2010__2019-09-20_21-12-45".
Definition a_ht_2010 := tuple7 7 2010 15 "a" "High Tech" "a_ht" "https://beam-outputs.s3.amazonaws.com/output/sfbay/sfbay-smart-a-ht-2010__2019-09-20_21-12-45".
Definition b_lt_2010 := tuple7 8 2010 15 "b" "Low Tech" "b_lt" "https://beam-outputs.s3.amazonaws.com/output/sfbay/sfbay-smart-b-lt-2010__2019-09-20_21-12-45".
Definition b_ht_2010 := tuple7 9 2010 15 "b" "High Tech" "b_ht" "https://beam-outputs.s3.amazonaws.com/output/sfbay/sfbay-smart-b-ht-2010__2019-09-20_21-12-46".
Definition c_lt_2010 := tuple7 10 2010 15 "c" "Low Tech" "c_lt" "https://beam-outputs.s3.amazonaws.com/output/sfbay/sfbay-smart-c-lt-2010__2019-09-20_21-12-45".
Definition c_ht_2010 := tuple7 11 2010 15 "c" "High Tech" "c_ht" "https://beam-outputs.s3.amazonaws.com/output/sfbay/sfbay-smart-c-ht-2010__2019-09-20_21-12-45".

Definition baseline_2025 := tuple7 1 2025 15 "base" "Base" "baseline" "https://beam-outputs.s3.amazonaws.com/output/sfbay/sfbay-smart-base-2025__2019-09-20_21-12-45".
Definition base_2030lt_2025 := tuple7 2 2025 15 "base" "2030 Low Tech" "base_fleet_2030_lt" "https://beam-outputs.s3.amazonaws.com/output/sfbay/sfbay-smart-base-2030-lt-2025__2019-09-20_21-13-01".
Definition base_2030ht_2025 := tuple7 3 2025 15 "base" "2030 High Tech" "base_fleet_2030_ht" "https://beam-outputs.s3.amazonaws.com/output/sfbay/sfbay-smart-base-2030-ht-2025__2019-09-20_21-13-12".
Definition a_lt_2025 := tuple7 6 2025 15 "a" "Low Tech" "a_lt" "https://beam-outputs.s3.amazonaws.com/output/sfbay/sfbay-smart-a-lt-2025__2019-09-20_21-12-45".
Definition a_ht_2025 := tuple7 7 2025 15 "a" "High Tech" "a_ht" "https://beam-outputs.s3.amazonaws.com/output/sfbay/sfbay-smart-a-ht-2025__2019-09-20_21-12-45".

Definition baseline_2040 := tuple7 1 2040 15 "base" "Base" "baseline" "https://beam-outputs.s3.amazonaws.com/output/sfbay/sfbay-smart-base-2040__2019-09-20_21-12-45".
Definition base_2045lt_2040 := tuple7 4 2040 15 "base" "2045 Low Tech" "base_fleet_2045_lt" "https://beam-outputs.s3.amazonaws.com/output/sfbay/sfbay-smart-base-2045-lt-2040__2019-09-22_19-47-05".
Definition base_2045ht_2040 := tuple7 5 2040 15 "base" "2045 High Tech" "base_fleet_2045_ht" "https://beam-outputs.s3.amazonaws.com/output/sfbay/sfbay-smart-base-2045-ht-2040__2019-09-22_19-47-05".
Definition b_lt_2040 := tuple7 8 2040 15 "b" "Low Tech" "b_lt" "https://beam-outputs.s3.amazonaws.com/output/sfbay/sfbay-smart-b-lt-2040__2019-09-20_21-12-45".
Definition b_ht_2040 := tuple7 9 2040 15 "b" "High Tech" "b_ht" "https://beam-outputs.s3.amazonaws.com/output/sfbay/sfbay-smart-b-ht-2040__2019-09-20_21-12-45".
Definition c_lt_2040 := tuple7 10 2040 15 "c" "Low Tech" "c_lt" "https://beam-outputs.s3.amazonaws.com/output/sfbay/sfbay-smart-c-lt-2040__2019-09-20_21-12-45".
Definition c_ht_2040 := tuple7 11 2040 15 "c" "High Tech" "c_ht" "https://beam-outputs.s3.amazonaws.com/output/sfbay/sfbay-smart-c-ht-2040__2019-09-20_21-12-45".

End Scenarios.

(** The assignments that the source keeps behind a leading [#]: they are
    never executed, so none of these tuples is bound or reaches a list. *)
Module CommentedOut.

Definition base_2030lt_2010 := tuple7 2 2010 15 "base" "2030 Low Tech" "base_fleet_2030_lt" "beam/sfbay-smart-base-2030-lt-pilates__2019-09-11_04-49-22".
Definition base_2030ht_2010 := tuple7 3 2010 15 "base" "2030 High Tech" "base_fleet_2030_ht" "beam/sfbay-smart-base-2030-ht-pilates__2019-09-11_04-50-11".
Definition base_2045lt_2010 := tuple7 4 2010 15 "base" "2045 Low Tech" "base_fleet_2045_lt" "beam/sfbay-smart-base-2045-lt-pilates__2019-09-11_04-51-06".
Definition base_2045ht_2010 := tuple7 5 2010 15 "base" "2045 High Tech" "base_fleet_2045_ht" "beam/sfbay-smart-base-2045-ht-pilates__2019-09-11_04-51-47".

Definition base_2045lt_2025 := tuple7 4 2025 15 "base" "2045 Low Tech" "base_fleet_2045_lt" "https://beam-outputs.s3.amazonaws.com/output/sfbay/sfbay-smart-base-2045-lt-2025__2019-09-20_21-13-13".
Definition base_2045ht_2025 := tuple7 5 2025 15 "base" "2045 High Tech" "base_fleet_2045_ht" "https://beam-outputs.s3.amazonaws.com/output/sfbay/sfbay-smart-base-2045-ht-2025__2019-09-20_22-41-25".
Definition b_lt_2025 := tuple7 8 2025 15 "b" "Low Tech" "b_lt" "beam/sfbay-smart-b-lt-pilates__2019-09-12_18-51-38".
Definition b_ht_2025 := tuple7 9 2025 15 "b" "High Tech" "b_ht" "beam/sfbay-smart-b-ht-pilates__2019-09-12_20-27-39".
Definition c_lt_2025 := tuple7 10 2025 15 "c" "Low Tech" "c_lt" "beam/sfbay-smart-c-lt-pilates__2019-09-12_18-53-11".
Definition c_ht_2025 := tuple7 11 2025 15 "c" "High Tech" "c_ht" "beam/sfbay-smart-c-ht-pilates__2019-09-12_18-54-51".

Definition base_2030lt_2040 := tuple7 2 2040 15 "base" "2030 Low Tech" "base_fleet_2030_lt" "beam/sfbay-smart-base-2030-lt-pilates__2019-09-13_18-06-04".
Definition base_2030ht_2040 := tuple7 3 2040 15 "base" "2030 High Tech" "base_fleet_2030_ht" "beam/sfbay-smart-base-2030-ht-pilates__2019-09-13_17-47-43".
Definition a_lt_2040 := tuple7 6 2040 15 "a" "Low Tech" "a_lt" "beam/sfbay-smart-a-lt-pilates__2019-09-13_13-44-02".
Definition a_ht_2040 := tuple7 7 2040 15 "a" "High Tech" "a_ht" "beam/sfbay-smart-a-ht-pilates__2019-09-13_13-39-31".

(** All of them, in source order. *)
Definition all : list pyval :=
  [base_2030lt_2010; base_2030ht_2010; base_2045lt_2010; base_2045ht_2010;
   base_2045lt_2025; base_2045ht_2025; b_lt_2025; b_ht_2025; c_lt_2025; c_ht_2025;
   base_2030lt_2040; base_2030ht_2040; a_lt_2040; a_ht_2040].

End CommentedOut.

Export Scenarios.

(** ** The year groups and the catalog (lines 44-49) *)

Definition scenarios_2010 : list pyval :=
  [baseline_2010; a_lt_2010; a_ht_2010; b_lt_2010; b_ht_2010; c_lt_2010; c_ht_2010].
Definition scenarios_2025 : list pyval :=
  [baseline_2025; base_2030lt_2025; base_2030ht_2025;
   a_lt_2025; a_ht_2025].
Definition scenarios_2040 : list pyval :=
  [baseline_2040; base_2045lt_2040; base_2045ht_2040; b_lt_2040; b_ht_2040; c_lt_2040; c_ht_2040].

(** Python's [+] on two lists: a fresh list holding the items of the left
    operand followed by those of the right one. *)
Definition list_add (a b : list pyval) : list pyval := (a ++ b)%list.

(** Line 49; Python parses [x + y + z] as [(x + y) + z]. *)
Definition scenarios : list pyval :=
  list_add (list_add scenarios_2010 scenarios_2025) scenarios_2040.

(** Line 49 for any number of groups: the groups are summed with [+] from
    left to right.  On the three groups of the script this is [scenarios]
    (lemma [scenarios_build_catalog]). *)
Definition build_catalog (groups : list (list pyval)) : list pyval :=
  match groups with
  | [] => []
  | g :: rest => fold_left list_add rest g
  end.

(** The position that item [j] of group [i] takes in the catalog. *)
Definition catalog_pos (groups : list (list pyval)) (i j : nat) : nat :=
  (length (concat (take i groups)) + j)%nat.

(** ** The record schema

    What the data model asks of a scenario tuple: seven fields, three
    integers (the id positive) followed by four strings, the group one of
    base, a, b, c. *)

Definition group_names : list string := ["base"; "a"; "b"; "c"].

Definition is_scenario_record (r : pyval) : bool :=
  match r with
  | PyTuple [PyInt i; PyInt _; PyInt _; PyStr g; PyStr _; PyStr _; PyStr _] =>
      (0 <? i)%Z && bool_decide (g ∈ group_names)
  | _ => false
  end.

(** Python's [len(r)] on a tuple. *)
Definition arity (r : pyval) : option nat :=
  match r with
  | PyTuple fs => Some (length fs)
  | _ => None
  end.

Definition output_root : string :=
  "https://beam-outputs.s3.amazonaws.com/output/sfbay/".

Definition uri_under_output_root (r : pyval) : bool :=
  match rec_source_uri r with
  | Some u => String.prefix output_root u
  | None => false
  end.

(** ** The run configuration (lines 51-55) *)

(** The dict literal with its three keys, for any name, directory and
    catalog; entries are stored in the order the literal lists them. *)
Definition build_run_config (run_name home_dir : string) (catalog : list pyval)
  : gmap string pyval :=
  <["scenarios" := PyList catalog]>
    (<["home_dir" := PyStr home_dir]>
       (<["run_name" := PyStr run_name]> ∅)).

Definition setup_config_dict : gmap string pyval :=
  <["scenarios" := PyList scenarios]>
    (<["home_dir" := PyStr "/home/ubuntu/git/jupyter/data"]>
       (<["run_name" := PyStr "20thSep2019"]> ∅)).

(** ** The effectful tail of the script (lines 58-60)

    A run is observed through the events the script itself causes, in
    order: the call of the imported [make_plots] and the line written by
    [print].  The collaborator is opaque: all that is known of a call is
    whether it returns or raises. *)

Inductive pyexn : Type := PyExn (kind message : string).

Inductive outcome (A : Type) : Type :=
| Returned (a : A)
| Raised (e : pyexn).
Arguments Returned {A} a.
Arguments Raised {A} e.

Inductive event : Type :=
| EvMakePlots (config : gmap string pyval)
| EvPrint (line : string).

(** The imported module, [smartdata_setup]: one callable. *)
Record smartdata_setup_module : Type :=
  { make_plots : gmap string pyval → outcome pyval }.

(** A statement maps the events so far to its outcome and the events after
    it; an exception ends the statement sequence. *)
Definition script (A : Type) : Type := list event → outcome A * list event.

Definition ret {A} (a : A) : script A := λ t, (Returned a, t).

Definition bind {A B} (m : script A) (k : A → script B) : script B :=
  λ t, match m t with
       | (Returned a, t') => k a t'
       | (Raised e, t') => (Raised e, t')
       end.

Notation "m ;;; k" := (bind m (λ _, k)) (at level 100, k at level 200, right associativity).

Definition call_make_plots (smartdata_setup : smartdata_setup_module)
    (config : gmap string pyval) : script pyval :=
  λ t, (make_plots smartdata_setup config, (t ++ [EvMakePlots config])%list).

Definition print (line : string) : script unit :=
  λ t, (Returned tt, (t ++ [EvPrint line])%list).

(** Line 58 for any configuration. *)
Definition execute (smartdata_setup : smartdata_setup_module)
    (config : gmap string pyval) : script pyval :=
  call_make_plots smartdata_setup config.

(** Lines 58-60. *)
Definition main (smartdata_setup : smartdata_setup_module) : script unit :=
  execute smartdata_setup setup_config_dict ;;; print "END".

(** The collaborator calls, and the lines printed, of a trace. *)
Definition calls (t : list event) : list (gmap string pyval) :=
  omap (λ e, match e with EvMakePlots c => Some c | EvPrint _ => None end) t.

Definition printed (t : list event) : list string :=
  omap (λ e, match e with EvPrint s => Some s | EvMakePlots _ => None end) t.

(** ** The script from its first line (lines 1-60)

    Line 1, [import smartdata_setup], either yields the module or raises;
    the assignments of lines 5-55 build values and raise nothing, so the
    script is the import followed by [main] on the imported module. *)
Definition run_script (import_smartdata_setup : outcome smartdata_setup_module)
  : script unit :=
  λ t, match import_smartdata_setup with
       | Returned smartdata_setup => main smartdata_setup t
       | Raised e => (Raised e, t)
       end.

(** Whether a record carries year [y] in its second field. *)
Definition in_year (y : Z) (r : pyval) : bool :=
  bool_decide (rec_year r = Some y).

(** The (year, id) pair a record is filed under, and the order of the
    catalog: by year, then by id. *)
Definition year_id (r : pyval) : option (Z * Z) :=
  y ← rec_year r; i ← rec_id r; Some (y, i).

Definition year_id_lt (a b : option (Z * Z)) : Prop :=
  match a, b with
  | Some (y1, i1), Some (y2, i2) => y1 < y2 ∨ (y1 = y2 ∧ i1 < i2)
  | _, _ => False
  end.

#[global] Instance year_id_lt_dec (a b : option (Z * Z)) :
  Decision (year_id_lt a b).
Proof. destruct a as [[??]|], b as [[??]|]; simpl; apply _. Defined.

(** Every tuple the source writes down, enabled or commented out. *)
Definition declared : list pyval := (scenarios ++ CommentedOut.all)%list.

(** ** Line 49 on the interpreter's heap

    A Python list is an object on the heap, and a name such as
    [scenarios_2010] holds its identity.  [x + y] on two lists reads both
    objects and allocates a new list for the result; it writes to neither
    operand.  A heap maps object identities to list contents, and may hold
    any number of other objects; [None] stands for the TypeError raised
    when an operand is no list. *)
Definition heap_list_add (a b : nat) (h : gmap nat (list pyval))
  : option (nat * gmap nat (list pyval)) :=
  xs ← h !! a; ys ← h !! b;
  let l := fresh (dom h) in
  Some (l, <[l := list_add xs ys]> h).

Definition add_next (acc : option (nat * gmap nat (list pyval))) (b : nat)
  : option (nat * gmap nat (list pyval)) :=
  '(a, h) ← acc; heap_list_add a b h.

(** Line 49 over the identities of the groups, summed with [+] from left
    to right; with no group at all an empty list is allocated, as
    [build_catalog] has it. *)
Definition build_catalog_on_heap (groups : list nat)
    (h : gmap nat (list pyval)) : option (nat * gmap nat (list pyval)) :=
  match groups with
  | [] => let l := fresh (dom h) in Some (l, <[l := []]> h)
  | g :: rest => fold_left add_next rest (Some (g, h))
  end.

(** Line 49 as written, on the identities bound to the three names. *)
Definition scenarios_on_heap (scenarios_2010 scenarios_2025 scenarios_2040 : nat)
    (h : gmap nat (list pyval)) : option (nat * gmap nat (list pyval)) :=
  '(sum, h') ← heap_list_add scenarios_2010 scenarios_2025 h;
  heap_list_add sum scenarios_2040 h'.

(** * Properties *)

(** ** Concatenation of groups *)

Section Catalog.

Implicit Types (groups : list (list pyval)) (g : list pyval) (r : pyval).

Lemma fold_left_list_add groups g :
  fold_left list_add groups g = (g ++ concat groups)%list.
Proof.
  revert g. induction groups as [|h rest IH]; intros g; simpl.
  - by rewrite app_nil_r.
  - rewrite IH. unfold list_add. by rewrite app_assoc.
Qed.

Lemma build_catalog_concat groups : build_catalog groups = concat groups.
Proof. destruct groups as [|g rest]; [done|]. apply fold_left_list_add. Qed.

Lemma build_catalog_app groups1 groups2 :
  build_catalog (groups1 ++ groups2)
  = (build_catalog groups1 ++ build_catalog groups2)%list.
Proof. rewrite !build_catalog_concat. apply concat_app. Qed.

Lemma build_catalog_cons g groups :
  build_catalog (g :: groups) = (g ++ build_catalog groups)%list.
Proof. by rewrite !build_catalog_concat. Qed.

Lemma build_catalog_length groups :
  length (build_catalog groups) = sum_list (length <$> groups).
Proof.
  rewrite build_catalog_concat.
  induction groups as [|g rest IH]; simpl; [done|].
  by rewrite length_app, IH.
Qed.

Lemma build_catalog_split groups i g :
  groups !! i = Some g →
  build_catalog groups
  = (build_catalog (take i groups) ++ g ++ build_catalog (drop (S i) groups))%list.
Proof.
  intros Hg. rewrite <- (take_drop_middle groups i g Hg) at 1.
  by rewrite build_catalog_app, build_catalog_cons.
Qed.

Lemma build_catalog_lookup groups i j g r :
  groups !! i = Some g → g !! j = Some r →
  build_catalog groups !! catalog_pos groups i j = Some r.
Proof.
  intros Hg Hr. rewrite (build_catalog_split groups i g Hg).
  unfold catalog_pos. rewrite <- build_catalog_concat.
  rewrite lookup_app_r by lia.
  replace (_ + j - _)%nat with j by lia.
  by apply lookup_app_l_Some.
Qed.

Lemma catalog_pos_next_group groups i j j' g :
  groups !! i = Some g → (j < length g)%nat →
  (catalog_pos groups i j < catalog_pos groups (S i) j')%nat.
Proof.
  intros Hg Hj. unfold catalog_pos.
  rewrite (take_S_r groups i g Hg), concat_app, length_app. simpl.
  rewrite app_nil_r. lia.
Qed.

Lemma scenarios_build_catalog :
  scenarios = build_catalog [scenarios_2010; scenarios_2025; scenarios_2040].
Proof. reflexivity. Qed.

Lemma elem_of_build_catalog groups r :
  r ∈ build_catalog groups ↔ ∃ g, g ∈ groups ∧ r ∈ g.
Proof.
  rewrite build_catalog_concat.
  induction groups as [|h rest IH]; simpl.
  - split; [by intros ?%elem_of_nil | by intros (g & ?%elem_of_nil & _)].
  - rewrite elem_of_app, IH. split.
    + intros [Hr | (g & Hg & Hr)].
      * exists h. split; [apply list_elem_of_here | done].
      * exists g. split; [by apply list_elem_of_further | done].
    + intros (g & [-> | Hg]%elem_of_cons & Hr); [by left | right; eauto].
Qed.

End Catalog.

(** ** The run configuration and the script's events *)

Section Config.

Implicit Types (run_name home_dir : string) (catalog : list pyval).

Lemma build_run_config_lookup_scenarios run_name home_dir catalog :
  build_run_config run_name home_dir catalog !! "scenarios" = Some (PyList catalog).
Proof. unfold build_run_config. by rewrite lookup_insert_eq. Qed.

Lemma build_run_config_lookup_home_dir run_name home_dir catalog :
  build_run_config run_name home_dir catalog !! "home_dir" = Some (PyStr home_dir).
Proof.
  unfold build_run_config.
  rewrite lookup_insert_ne by done. by rewrite lookup_insert_eq.
Qed.

Lemma build_run_config_lookup_run_name run_name home_dir catalog :
  build_run_config run_name home_dir catalog !! "run_name" = Some (PyStr run_name).
Proof.
  unfold build_run_config.
  rewrite !lookup_insert_ne by done. by rewrite lookup_insert_eq.
Qed.

Lemma build_run_config_dom run_name home_dir catalog :
  dom (build_run_config run_name home_dir catalog)
  = ({[ "run_name"; "home_dir"; "scenarios" ]} : gset string).
Proof.
  unfold build_run_config. rewrite !dom_insert_L, dom_empty_L. set_solver.
Qed.

Lemma setup_config_dict_build :
  setup_config_dict
  = build_run_config "20thSep2019" "/home/ubuntu/git/jupyter/data" scenarios.
Proof. reflexivity. Qed.

End Config.

Section Events.

Context (smartdata_setup : smartdata_setup_module).

Implicit Types (config : gmap string pyval) (t : list event).

Lemma calls_app t1 t2 : calls (t1 ++ t2) = (calls t1 ++ calls t2)%list.
Proof. apply omap_app. Qed.

Lemma printed_app t1 t2 : printed (t1 ++ t2) = (printed t1 ++ printed t2)%list.
Proof. apply omap_app. Qed.

Lemma execute_run config t :
  execute smartdata_setup config t
  = (make_plots smartdata_setup config, (t ++ [EvMakePlots config])%list).
Proof. reflexivity. Qed.

Lemma execute_calls_once config t :
  calls (execute smartdata_setup config t).2 = (calls t ++ [config])%list.
Proof. rewrite execute_run. simpl. by rewrite calls_app. Qed.

Lemma main_run t :
  main smartdata_setup t
  = match make_plots smartdata_setup setup_config_dict with
    | Returned _ =>
        (Returned tt, (t ++ [EvMakePlots setup_config_dict; EvPrint "END"])%list)
    | Raised e => (Raised e, (t ++ [EvMakePlots setup_config_dict])%list)
    end.
Proof.
  unfold main, bind. rewrite execute_run.
  destruct (make_plots smartdata_setup setup_config_dict); [|done].
  unfold print. by rewrite <- app_assoc.
Qed.

End Events.

(** ** Line 49 on the heap *)

Section Heap.

Implicit Types (h : gmap nat (list pyval)) (ids : list nat)
  (groups : list (list pyval)).

Lemma heap_list_add_run h a b xs ys :
  h !! a = Some xs → h !! b = Some ys →
  ∃ l, heap_list_add a b h = Some (l, <[l := list_add xs ys]> h)
       ∧ h !! l = None.
Proof.
  intros Ha Hb. exists (fresh (dom h)). unfold heap_list_add.
  rewrite Ha, Hb. simpl. split; [done|].
  apply not_elem_of_dom. apply is_fresh.
Qed.

Lemma fold_add_next_run h a xs ids groups :
  h !! a = Some xs →
  Forall2 (λ b g, h !! b = Some g) ids groups →
  ∃ r h', fold_left add_next ids (Some (a, h)) = Some (r, h')
          ∧ h' !! r = Some (fold_left list_add groups xs)
          ∧ h ⊆ h'.
Proof.
  intros Ha Hall. revert h a xs Ha Hall.
  revert groups. induction ids as [|b ids IH]; intros groups h a xs Ha Hall.
  - apply Forall2_nil_inv_l in Hall as ->. by exists a, h.
  - apply Forall2_cons_inv_l in Hall as (g & rest & Hb & Hall & ->).
    destruct (heap_list_add_run h a b xs g Ha Hb) as (l & Hadd & Hl).
    assert (h ⊆ <[l := list_add xs g]> h) as Hsub by by apply insert_subseteq.
    destruct (IH rest (<[l := list_add xs g]> h) l (list_add xs g))
      as (r & h' & Hrun & Hr & Hsub').
    + apply lookup_insert_eq.
    + eapply Forall2_impl; [exact Hall|].
      intros b' g' Hb'. simpl in Hb'. by eapply lookup_weaken.
    + exists r, h'.
      change (fold_left add_next (b :: ids) (Some (a, h)))
        with (fold_left add_next ids (heap_list_add a b h)).
      rewrite Hadd. split; [done|]. split; [done|]. by etrans.
Qed.

Lemma build_catalog_on_heap_run h ids groups :
  Forall2 (λ a g, h !! a = Some g) ids groups →
  ∃ r h', build_catalog_on_heap ids h = Some (r, h')
          ∧ h' !! r = Some (build_catalog groups)
          ∧ h ⊆ h'.
Proof.
  intros Hall. destruct Hall as [|a g ids groups Ha Hall]; simpl.
  - exists (fresh (dom h)), (<[fresh (dom h) := []]> h).
    split; [done|]. split; [apply lookup_insert_eq|].
    apply insert_subseteq, not_elem_of_dom, is_fresh.
  - by apply fold_add_next_run.
Qed.

End Heap.

(** * The claims *)

(** C1: [build_catalog] returns exactly the concatenation of the groups in
    the order given.  Nothing is added, dropped, merged or reordered: the
    result is [concat groups] and has as many records as the groups have
    together; the i-th group is one contiguous block standing after the
    catalog of the earlier groups and before that of the later ones; record
    [j] of group [i] sits at [catalog_pos groups i j], which grows with [j]
    inside a group and is below every position of group [i+1].  The
    script's [scenarios] is the 2010 group, then the 2025 group, then the
    2040 group. *)
Theorem build_catalog_is_ordered_concatenation (groups : list (list pyval)) :
  build_catalog groups = concat groups
  ∧ length (build_catalog groups) = sum_list (length <$> groups)
  ∧ (∀ i g, groups !! i = Some g →
       build_catalog groups
       = (build_catalog (take i groups) ++ g
            ++ build_catalog (drop (S i) groups))%list)
  ∧ (∀ i j g r, groups !! i = Some g → g !! j = Some r →
       build_catalog groups !! catalog_pos groups i j = Some r)
  ∧ (∀ i j j', (j < j')%nat →
       (catalog_pos groups i j < catalog_pos groups i j')%nat)
  ∧ (∀ i j j' g, groups !! i = Some g → (j < length g)%nat →
       (catalog_pos groups i j < catalog_pos groups (S i) j')%nat)
  ∧ scenarios = build_catalog [scenarios_2010; scenarios_2025; scenarios_2040]
  ∧ scenarios = (scenarios_2010 ++ scenarios_2025 ++ scenarios_2040)%list.
Proof.
  split; [apply build_catalog_concat|].
  split; [apply build_catalog_length|].
  split; [apply build_catalog_split|].
  split; [apply build_catalog_lookup|].
  split; [intros i j j' Hj; unfold catalog_pos; lia|].
  split; [intros i j j' g; apply catalog_pos_next_group|].
  split; reflexivity.
Qed.

(** The scenario of the specification: groups [[A(id=1)], [B(id=2), C(id=3)]]
    give [A, B, C], and B (group 1, item 0) lands at position 1. *)
Lemma build_catalog_is_ordered_concatenation_witness :
  let A := PyTuple [PyInt 1] in
  let B := PyTuple [PyInt 2] in
  let C := PyTuple [PyInt 3] in
  build_catalog [[A]; [B; C]] = [A; B; C]
  ∧ build_catalog [[A]; [B; C]] !! 1%nat = Some B.
Proof.
  intros A B C.
  destruct (build_catalog_is_ordered_concatenation [[A]; [B; C]])
    as (Hcat & _ & _ & Hpos & _).
  split; [exact Hcat|].
  exact (Hpos 1%nat 0%nat [B; C] B eq_refl eq_refl).
Defined.

(** C5: the builder hands every record on as it received it.  Whatever
    value [r] stands at item [j] of group [i] (a well-formed scenario tuple
    or not), the catalog stored under [scenarios] in the run configuration
    has that same [r] at [catalog_pos groups i j], and holds nothing but the
    records of the groups. *)
Theorem records_pass_through_unchanged (groups : list (list pyval))
    (run_name home_dir : string) (i j : nat) (g : list pyval) (r : pyval) :
  groups !! i = Some g → g !! j = Some r →
  ∃ catalog,
    build_run_config run_name home_dir (build_catalog groups) !! "scenarios"
    = Some (PyList catalog)
    ∧ catalog !! catalog_pos groups i j = Some r
    ∧ length catalog = sum_list (length <$> groups)
    ∧ ∀ r', r' ∈ catalog ↔ ∃ g', g' ∈ groups ∧ r' ∈ g'.
Proof.
  intros Hg Hr. exists (build_catalog groups).
  split; [apply build_run_config_lookup_scenarios|].
  split; [by eapply build_catalog_lookup|].
  split; [apply build_catalog_length|].
  intros r'. apply elem_of_build_catalog.
Qed.

(** A record whose seventh field is no URI at all, and a value that is
    not even a tuple, both arrive as they were given. *)
Lemma records_pass_through_unchanged_witness :
  let bad := tuple7 1 2010 15 "base" "Base" "baseline" "::not a uri::" in
  ∃ catalog,
    build_run_config "x" "/tmp" (build_catalog [[PyInt 0]; [bad]]) !! "scenarios"
    = Some (PyList catalog)
    ∧ catalog !! 1%nat = Some bad
    ∧ length catalog = 2%nat
    ∧ ∀ r', r' ∈ catalog ↔ ∃ g', g' ∈ [[PyInt 0]; [bad]] ∧ r' ∈ g'.
Proof.
  intros bad.
  exact (records_pass_through_unchanged [[PyInt 0]; [bad]] "x" "/tmp"
           1%nat 0%nat [bad] bad eq_refl eq_refl).
Defined.

(** C6: [build_catalog] is deterministic and has no hidden state.  Take
    two runs of line 49, each on its own heap, whatever else those heaps
    hold and wherever the groups live in them: when the groups have the
    same contents, in the same order, in both, both runs return, their
    catalogs are the same sequence (the one [build_catalog] gives on those
    contents), and neither run changes any object that was there before.
    On three groups this is line 49 as written. *)
Theorem build_catalog_deterministic (h1 h2 : gmap nat (list pyval))
    (ids1 ids2 : list nat) (groups : list (list pyval)) :
  Forall2 (λ a g, h1 !! a = Some g) ids1 groups →
  Forall2 (λ a g, h2 !! a = Some g) ids2 groups →
  ∃ r1 h1' r2 h2' catalog,
    build_catalog_on_heap ids1 h1 = Some (r1, h1')
    ∧ build_catalog_on_heap ids2 h2 = Some (r2, h2')
    ∧ h1' !! r1 = Some catalog
    ∧ h2' !! r2 = Some catalog
    ∧ catalog = build_catalog groups
    ∧ h1 ⊆ h1' ∧ h2 ⊆ h2'
    ∧ ∀ a b c h, scenarios_on_heap a b c h = build_catalog_on_heap [a; b; c] h.
Proof.
  intros H1 H2.
  destruct (build_catalog_on_heap_run h1 ids1 groups H1)
    as (r1 & h1' & Hrun1 & Hr1 & Hsub1).
  destruct (build_catalog_on_heap_run h2 ids2 groups H2)
    as (r2 & h2' & Hrun2 & Hr2 & Hsub2).
  exists r1, h1', r2, h2', (build_catalog groups).
  do 7 (split; [done|]).
  intros a b c h. unfold scenarios_on_heap. simpl.
  by destruct (heap_list_add a b h) as [[??]|].
Qed.

(** The three year lists at identities 0, 1, 2 of a heap that holds
    nothing else, and at 5, 7, 9 of a heap that also holds another list. *)
Lemma build_catalog_deterministic_witness :
  let h1 : gmap nat (list pyval) :=
    <[0%nat := scenarios_2010]>
      (<[1%nat := scenarios_2025]> (<[2%nat := scenarios_2040]> ∅)) in
  let h2 : gmap nat (list pyval) :=
    <[5%nat := scenarios_2010]>
      (<[7%nat := scenarios_2025]>
         (<[9%nat := scenarios_2040]> (<[3%nat := [PyInt 0]]> ∅))) in
  ∃ r1 h1' r2 h2' catalog,
    build_catalog_on_heap [0; 1; 2]%nat h1 = Some (r1, h1')
    ∧ build_catalog_on_heap [5; 7; 9]%nat h2 = Some (r2, h2')
    ∧ h1' !! r1 = Some catalog
    ∧ h2' !! r2 = Some catalog
    ∧ catalog = build_catalog [scenarios_2010; scenarios_2025; scenarios_2040]
    ∧ h1 ⊆ h1' ∧ h2 ⊆ h2'
    ∧ ∀ a b c h, scenarios_on_heap a b c h = build_catalog_on_heap [a; b; c] h.
Proof.
  intros h1 h2.
  apply (build_catalog_deterministic h1 h2 [0; 1; 2]%nat [5; 7; 9]%nat
           [scenarios_2010; scenarios_2025; scenarios_2040]);
    repeat (constructor; [reflexivity|]); constructor.
Defined.

(** C7: re-grouping does not change the catalog.  Cutting the i-th group
    at any point [k] into two adjacent groups, record order kept, gives the
    same flattened sequence as the original grouping. *)
Theorem build_catalog_regroup (groups : list (list pyval)) (i k : nat)
    (g : list pyval) :
  groups !! i = Some g →
  build_catalog (take i groups ++ [take k g; drop k g] ++ drop (S i) groups)
  = build_catalog groups.
Proof.
  intros Hg. rewrite (build_catalog_split groups i g Hg).
  rewrite !build_catalog_concat, concat_app. simpl.
  by rewrite (app_assoc (take k g)), take_drop.
Qed.

(** The 2025 group cut after its three base records. *)
Lemma build_catalog_regroup_witness :
  build_catalog
    [scenarios_2010;
     [baseline_2025; base_2030lt_2025; base_2030ht_2025];
     [a_lt_2025; a_ht_2025];
     scenarios_2040]
  = build_catalog [scenarios_2010; scenarios_2025; scenarios_2040].
Proof.
  exact (build_catalog_regroup [scenarios_2010; scenarios_2025; scenarios_2040]
           1%nat 3%nat scenarios_2025 eq_refl).
Defined.

(** C8: empty inputs are accepted and forwarded.  An empty group adds no
    record wherever it stands; no groups at all give the empty catalog; the
    run configuration built over an empty catalog holds an empty list under
    [scenarios]; and [execute] on it still calls the collaborator, once,
    with that very configuration. *)
Theorem empty_inputs_are_forwarded :
  (∀ before after : list (list pyval),
     build_catalog (before ++ [[]] ++ after) = build_catalog (before ++ after))
  ∧ build_catalog [] = []
  ∧ build_run_config "x" "/tmp" (build_catalog []) !! "scenarios"
    = Some (PyList [])
  ∧ ∀ (smartdata_setup : smartdata_setup_module) (run_name home_dir : string),
      let config := build_run_config run_name home_dir (build_catalog []) in
      config !! "scenarios" = Some (PyList [])
      ∧ execute smartdata_setup config []
        = (make_plots smartdata_setup config, [EvMakePlots config])
      ∧ calls (execute smartdata_setup config []).2 = [config].
Proof.
  split.
  { intros before after. by rewrite !build_catalog_app. }
  split; [reflexivity|].
  split; [apply build_run_config_lookup_scenarios|].
  intros smartdata_setup run_name home_dir config.
  split; [apply build_run_config_lookup_scenarios|].
  split; [reflexivity|].
  apply execute_calls_once.
Qed.

(** C3: the script calls the collaborator exactly once, with
    [setup_config_dict], and prints END after the call and only when the
    call returned.  After any earlier events [t]: when [make_plots] returns,
    the run ends normally having added the call and then the line END; when
    it raises [e], the run ends with the same [e] having added the call
    alone. *)
Theorem main_calls_once_and_prints_END_on_return
    (smartdata_setup : smartdata_setup_module) (t : list event) :
  let answer := make_plots smartdata_setup setup_config_dict in
  let run := main smartdata_setup t in
  calls run.2 = (calls t ++ [setup_config_dict])%list
  ∧ match answer with
    | Returned _ =>
        run = (Returned tt,
               (t ++ [EvMakePlots setup_config_dict; EvPrint "END"])%list)
    | Raised e =>
        run = (Raised e, (t ++ [EvMakePlots setup_config_dict])%list)
    end
  ∧ printed run.2
    = (printed t ++ match answer with
                    | Returned _ => ["END"]
                    | Raised _ => []
                    end)%list.
Proof.
  intros answer run. subst answer run. rewrite main_run.
  destruct (make_plots smartdata_setup setup_config_dict) as [v|e]; simpl;
    rewrite calls_app, printed_app; simpl; by rewrite ?app_nil_r.
Qed.

(** C4: the run configuration is a dict with exactly the three keys
    [run_name], [home_dir] and [scenarios], holding the name and the
    directory as strings and the catalog as a list, each exactly as
    supplied; it is built for every name, directory and catalog, none of
    which is inspected.  [setup_config_dict] is that construction at the
    script's own three values. *)
Theorem build_run_config_has_exactly_three_fields
    (run_name home_dir : string) (catalog : list pyval) :
  let config := build_run_config run_name home_dir catalog in
  dom config = ({[ "run_name"; "home_dir"; "scenarios" ]} : gset string)
  ∧ size config = 3%nat
  ∧ config !! "run_name" = Some (PyStr run_name)
  ∧ config !! "home_dir" = Some (PyStr home_dir)
  ∧ config !! "scenarios" = Some (PyList catalog)
  ∧ setup_config_dict
    = build_run_config "20thSep2019" "/home/ubuntu/git/jupyter/data" scenarios.
Proof.
  intros config. subst config.
  split; [apply build_run_config_dom|].
  split.
  { unfold build_run_config.
    rewrite !map_size_insert_None, map_size_empty; [done|..].
    - done.
    - by rewrite lookup_insert_ne.
    - by rewrite !lookup_insert_ne. }
  split; [apply build_run_config_lookup_run_name|].
  split; [apply build_run_config_lookup_home_dir|].
  split; [apply build_run_config_lookup_scenarios|].
  apply setup_config_dict_build.
Qed.

(** ** The tuples of the script *)

Ltac check_each_record :=
  repeat (apply List.Forall_cons; [repeat split; vm_compute; reflexivity|]);
  apply List.Forall_nil.

(** C9: every group is year-homogeneous and made of 7-field scenario
    tuples: each record of [scenarios_2010] carries year 2010, each of
    [scenarios_2025] year 2025, each of [scenarios_2040] year 2040, and
    every one of them is a tuple of length 7 that meets the record
    schema. *)
Theorem groups_are_year_homogeneous :
  let in_year (y : Z) (r : pyval) :=
    rec_year r = Some y ∧ arity r = Some 7%nat ∧ is_scenario_record r = true in
  Forall (in_year 2010) scenarios_2010
  ∧ Forall (in_year 2025) scenarios_2025
  ∧ Forall (in_year 2040) scenarios_2040.
Proof. intros in_year. subst in_year. repeat split; check_each_record. Qed.

Lemma enabled_records_under_output_root :
  Forall (λ r, rec_horizon_span r = Some 15 ∧ uri_under_output_root r = true)
         scenarios.
Proof. check_each_record. Qed.

(** C10: every record of the catalog has horizon span 15 and a source URI
    that starts with the output root
    [https://beam-outputs.s3.amazonaws.com/output/sfbay/]; among all tuples
    written in the source, enabled or commented out, one whose URI does not
    start with it (the bare [beam/...] paths) is always a commented-out one
    and never in the catalog. *)
Theorem enabled_records_have_span_15_and_url :
  Forall (λ r, rec_horizon_span r = Some 15 ∧ uri_under_output_root r = true)
         scenarios
  ∧ (∀ r, r ∈ (scenarios ++ CommentedOut.all)%list →
          uri_under_output_root r = false →
          r ∈ CommentedOut.all ∧ r ∉ scenarios)
  ∧ Exists (λ r, uri_under_output_root r = false) CommentedOut.all.
Proof.
  pose proof enabled_records_under_output_root as Hen.
  rewrite Forall_forall in Hen.
  split; [apply enabled_records_under_output_root|].
  split.
  - intros r Hr Hbare.
    assert (r ∉ scenarios) as Hout.
    { intros Hin. destruct (Hen r Hin) as [_ Hurl]. congruence. }
    apply elem_of_app in Hr as [Hr | Hr]; [contradiction | done].
  - apply List.Exists_cons_hd. vm_compute. reflexivity.
Qed.

(** C2, as stated, fails: the catalog holds the baseline of 2010 at
    position 0 and the baseline of 2025 at position 7, and both carry id 1. *)
Lemma catalog_ids_repeat_across_years :
  scenarios !! 0%nat = Some baseline_2010
  ∧ scenarios !! 7%nat = Some baseline_2025
  ∧ rec_id baseline_2010 = Some 1
  ∧ rec_id baseline_2025 = Some 1
  ∧ ¬ NoDup (rec_id <$> scenarios).
Proof.
  repeat split; try reflexivity.
  intros Hnodup. apply NoDup_cons in Hnodup as [Hnotin _].
  apply Hnotin. vm_compute.
  do 6 apply list_elem_of_further. apply list_elem_of_here.
Qed.

(** C2, amended: ids are unique inside each year group, and the pair
    (id, year) is unique across the whole catalog; ids are reused from one
    year group to the next: id 1 is carried by [baseline_2010] in the 2010
    group, by [baseline_2025] in the 2025 group and by [baseline_2040] in
    the 2040 group, all three in the catalog. *)
Theorem ids_unique_within_each_year :
  NoDup (rec_id <$> scenarios_2010)
  ∧ NoDup (rec_id <$> scenarios_2025)
  ∧ NoDup (rec_id <$> scenarios_2040)
  ∧ NoDup ((λ r, (rec_id r, rec_year r)) <$> scenarios)
  ∧ (baseline_2010 ∈ scenarios_2010 ∧ rec_id baseline_2010 = Some 1)
  ∧ (baseline_2025 ∈ scenarios_2025 ∧ rec_id baseline_2025 = Some 1)
  ∧ (baseline_2040 ∈ scenarios_2040 ∧ rec_id baseline_2040 = Some 1)
  ∧ scenarios !! 0%nat = Some baseline_2010
  ∧ scenarios !! 7%nat = Some baseline_2025
  ∧ scenarios !! 12%nat = Some baseline_2040.
Proof.
  do 4 (split; [apply (bool_decide_unpack _); vm_compute; exact I|]).
  do 3 (split; [split; [apply list_elem_of_here | reflexivity]|]).
  repeat split; reflexivity.
Qed.

(** * Further properties of the catalog *)

Section Slots.

Implicit Types (groups : list (list pyval)) (g : list pyval) (r : pyval).

Lemma catalog_pos_cons_0 h groups j : catalog_pos (h :: groups) 0 j = j.
Proof. reflexivity. Qed.

Lemma catalog_pos_cons_S h groups i j :
  catalog_pos (h :: groups) (S i) j = (length h + catalog_pos groups i j)%nat.
Proof. unfold catalog_pos. simpl. rewrite length_app. lia. Qed.

Lemma catalog_offset_mono groups i i' :
  (i ≤ i')%nat →
  (length (concat (take i groups)) ≤ length (concat (take i' groups)))%nat.
Proof.
  intros Hle. rewrite <- (take_drop i (take i' groups)).
  rewrite take_take, Nat.min_l by done.
  rewrite concat_app, length_app. lia.
Qed.

Lemma catalog_pos_later_group groups i i' j j' g :
  groups !! i = Some g → (j < length g)%nat → (i < i')%nat →
  (catalog_pos groups i j < catalog_pos groups i' j')%nat.
Proof.
  intros Hg Hj Hlt.
  pose proof (catalog_pos_next_group groups i j 0 g Hg Hj) as Hnext.
  pose proof (catalog_offset_mono groups (S i) i' Hlt) as Hmono.
  unfold catalog_pos in *. lia.
Qed.

Lemma delete_in_left {A} (l1 l2 : list A) j :
  (j < List.length l1)%nat → delete j (l1 ++ l2)%list = (delete j l1 ++ l2)%list.
Proof.
  revert j. induction l1 as [|x l1 IH]; intros [|j] Hj; simpl in *;
    try lia; [done|].
  f_equal. apply IH. lia.
Qed.

Lemma delete_past_left {A} (l1 l2 : list A) (p : nat) :
  delete (List.length l1 + p)%nat (l1 ++ l2)%list = (l1 ++ delete p l2)%list.
Proof. induction l1 as [|x l1 IH]; simpl; [done | by f_equal]. Qed.

Lemma filter_keeps_all (p : pyval → bool) g :
  Forall (λ r, p r = true) g → filter (λ r, p r = true) g = g.
Proof.
  induction 1 as [|r g Hr _ IH]; [done|].
  rewrite filter_cons_True by done. by f_equal.
Qed.

Lemma filter_concat_drops_all (p : pyval → bool) groups :
  (∀ g, g ∈ groups → Forall (λ r, p r = false) g) →
  filter (λ r, p r = true) (concat groups) = [].
Proof.
  induction groups as [|h rest IH]; intros Hall; simpl; [done|].
  rewrite filter_app, IH.
  - rewrite app_nil_r.
    assert (Forall (λ r, p r = false) h) as Hh by (apply Hall; left).
    clear -Hh. induction Hh as [|r h Hr _ IHh]; [done|].
    rewrite filter_cons_False; [done | congruence].
  - intros g Hg. apply Hall. by right.
Qed.

Lemma lookup_two_sublist {A} (l : list A) (p p' : nat) (x y : A) :
  (p < p')%nat → l !! p = Some x → l !! p' = Some y →
  [x; y] `sublist_of` l.
Proof.
  intros Hlt Hx Hy.
  rewrite <- (take_drop_middle l p x Hx).
  apply sublist_inserts_l. apply sublist_skip.
  assert (drop (S p) l !! (p' - S p)%nat = Some y) as Hy'.
  { rewrite lookup_drop. by replace (S p + (p' - S p))%nat with p' by lia. }
  rewrite <- (take_drop_middle _ _ _ Hy').
  apply sublist_inserts_l. apply sublist_skip. apply sublist_nil_l.
Qed.

End Slots.

(** X1: the catalog of a group sequence cut in two is the [+] of the two
    catalogs, and the catalog of a single group is that group; so the
    script's [(x + y) + z] is also [x + (y + z)]. *)
Theorem build_catalog_of_appended_sequences
    (groups1 groups2 : list (list pyval)) (g : list pyval) :
  build_catalog (groups1 ++ groups2)
  = list_add (build_catalog groups1) (build_catalog groups2)
  ∧ build_catalog [g] = g
  ∧ build_catalog (g :: groups2) = list_add g (build_catalog groups2).
Proof.
  split; [apply build_catalog_app|].
  split; [reflexivity | apply build_catalog_cons].
Qed.

(** X2: positions in the catalog follow the order of the slots.  Take two
    occupied slots, record [r] at item [j] of group [i] and record [r'] at
    item [j'] of group [i'].  The catalog holds [r] at position
    [catalog_pos groups i j] and [r'] at [catalog_pos groups i' j']; the
    first position is below the second exactly when [i < i'], or [i = i']
    and [j < j'], for any two groups and not only adjacent ones; two
    different slots never share a position of the catalog. *)
Theorem catalog_pos_orders_slots (groups : list (list pyval))
    (i j i' j' : nat) (g g' : list pyval) (r r' : pyval) :
  groups !! i = Some g → g !! j = Some r →
  groups !! i' = Some g' → g' !! j' = Some r' →
  ∃ p p',
    p = catalog_pos groups i j ∧ p' = catalog_pos groups i' j'
    ∧ build_catalog groups !! p = Some r
    ∧ build_catalog groups !! p' = Some r'
    ∧ ((p < p')%nat ↔ (i < i')%nat ∨ (i = i' ∧ (j < j')%nat))
    ∧ (p = p' → i = i' ∧ j = j' ∧ r = r')
    ∧ ((p < p')%nat → [r; r'] `sublist_of` build_catalog groups).
Proof.
  intros Hg Hr Hg' Hr'.
  pose proof (lookup_lt_Some _ _ _ Hr) as Hj.
  pose proof (lookup_lt_Some _ _ _ Hr') as Hj'.
  pose proof (build_catalog_lookup groups i j g r Hg Hr) as Hp.
  pose proof (build_catalog_lookup groups i' j' g' r' Hg' Hr') as Hp'.
  exists (catalog_pos groups i j), (catalog_pos groups i' j').
  do 4 (split; [done|]).
  assert ((catalog_pos groups i j < catalog_pos groups i' j')%nat
          ↔ (i < i')%nat ∨ (i = i' ∧ (j < j')%nat)) as Hord.
  { destruct (Nat.lt_trichotomy i i') as [Hlt | [-> | Hgt]].
    - pose proof (catalog_pos_later_group groups i i' j j' g Hg Hj Hlt). lia.
    - unfold catalog_pos. lia.
    - pose proof (catalog_pos_later_group groups i' i j' j g' Hg' Hj' Hgt).
      lia. }
  split; [exact Hord|]. split.
  - intros Heq.
    assert (i = i' ∧ j = j') as [-> ->].
    { destruct (Nat.lt_trichotomy i i') as [Hlt | [-> | Hgt]].
      - pose proof (catalog_pos_later_group groups i i' j j' g Hg Hj Hlt). lia.
      - unfold catalog_pos in Heq. lia.
      - pose proof (catalog_pos_later_group groups i' i j' j g' Hg' Hj' Hgt).
        lia. }
    simplify_eq. done.
  - intros Hlt.
    exact (lookup_two_sublist (build_catalog groups) _ _ r r' Hlt Hp Hp').
Qed.

(** The last record of the 2010 list and the first of the 2040 list. *)
Lemma catalog_pos_orders_slots_witness :
  let groups := [scenarios_2010; scenarios_2025; scenarios_2040] in
  ∃ p p',
    p = catalog_pos groups 0 6 ∧ p' = catalog_pos groups 2 0
    ∧ build_catalog groups !! p = Some c_ht_2010
    ∧ build_catalog groups !! p' = Some baseline_2040
    ∧ ((p < p')%nat ↔ (0 < 2)%nat ∨ (0%nat = 2%nat ∧ (6 < 0)%nat))
    ∧ (p = p' → 0%nat = 2%nat ∧ 6%nat = 0%nat ∧ c_ht_2010 = baseline_2040)
    ∧ ((p < p')%nat → [c_ht_2010; baseline_2040] `sublist_of` build_catalog groups).
Proof.
  intros groups.
  exact (catalog_pos_orders_slots groups 0 6 2 0 scenarios_2010 scenarios_2040
           c_ht_2010 baseline_2040 eq_refl eq_refl eq_refl eq_refl).
Defined.

(** X3: every position of the catalog is the position of one occupied
    slot: a record found at position [p] is item [j] of some group [i],
    unchanged. *)
Theorem catalog_record_has_a_slot (groups : list (list pyval)) (p : nat)
    (r : pyval) :
  build_catalog groups !! p = Some r →
  ∃ i j g, groups !! i = Some g ∧ g !! j = Some r
           ∧ catalog_pos groups i j = p.
Proof.
  revert p. induction groups as [|h rest IH]; intros p Hp.
  - by destruct p.
  - rewrite build_catalog_cons in Hp.
    apply lookup_app_Some in Hp as [Hp | [Hge Hp]].
    + exists 0%nat, p, h. by rewrite catalog_pos_cons_0.
    + destruct (IH _ Hp) as (i & j & g & Hg & Hr & Hpos).
      exists (S i), j, g. rewrite catalog_pos_cons_S. repeat split; [done..|lia].
Qed.

Lemma catalog_record_has_a_slot_witness :
  ∃ i j g, [scenarios_2010; scenarios_2025; scenarios_2040] !! i = Some g
           ∧ g !! j = Some a_lt_2025
           ∧ catalog_pos [scenarios_2010; scenarios_2025; scenarios_2040] i j
             = 10%nat.
Proof.
  exact (catalog_record_has_a_slot
           [scenarios_2010; scenarios_2025; scenarios_2040] 10 a_lt_2025
           eq_refl).
Defined.

(** X4: taking one record out of a group (what commenting a scenario out
    of its year list does) removes exactly that record's position from the
    catalog: every other record stays, with its value and in its order, and
    the catalog is one shorter. *)
Theorem build_catalog_without_a_record (groups : list (list pyval))
    (i j : nat) (g : list pyval) :
  groups !! i = Some g → (j < length g)%nat →
  build_catalog (alter (delete j) i groups)
  = delete (catalog_pos groups i j) (build_catalog groups)
  ∧ build_catalog (alter (delete j) i groups) `sublist_of` build_catalog groups
  ∧ S (length (build_catalog (alter (delete j) i groups)))
    = length (build_catalog groups).
Proof.
  intros Hg Hj.
  assert (build_catalog (alter (delete j) i groups)
          = delete (catalog_pos groups i j) (build_catalog groups)) as Heq.
  { unfold catalog_pos. rewrite (build_catalog_split groups i g Hg).
    rewrite <- (build_catalog_concat (take i groups)).
    rewrite delete_past_left, delete_in_left by done.
    rewrite <- (take_drop_middle groups i g Hg) at 1.
    pose proof (lookup_lt_Some _ _ _ Hg) as Hi.
    rewrite alter_app_r_alt by (rewrite length_take; lia).
    rewrite length_take, Nat.min_l, Nat.sub_diag by lia. simpl.
    by rewrite build_catalog_app, build_catalog_cons. }
  split; [done|]. rewrite Heq.
  split; [apply sublist_delete|].
  rewrite length_delete.
  - pose proof (build_catalog_length groups).
    assert (0 < length (build_catalog groups))%nat; [|lia].
    rewrite (build_catalog_split groups i g Hg), !length_app. lia.
  - destruct (lookup_lt_is_Some_2 g j Hj) as [r Hr].
    rewrite (build_catalog_lookup groups i j g r Hg Hr). eauto.
Qed.

(** Leaving [base_2030lt_2025] out of the 2025 list. *)
Lemma build_catalog_without_a_record_witness :
  let groups := [scenarios_2010; scenarios_2025; scenarios_2040] in
  let groups' :=
    [scenarios_2010;
     [baseline_2025; base_2030ht_2025; a_lt_2025; a_ht_2025];
     scenarios_2040] in
  build_catalog groups' = delete 8%nat (build_catalog groups)
  ∧ build_catalog groups' `sublist_of` build_catalog groups
  ∧ S (length (build_catalog groups')) = length (build_catalog groups).
Proof.
  intros groups groups'.
  refine (build_catalog_without_a_record groups 1 1 scenarios_2025 eq_refl _).
  simpl. lia.
Defined.

(** X5: the groups can be read back from the catalog.  When a test holds
    of every record of group [i] and of no record of any other group,
    keeping the catalog records that pass it gives back group [i], in
    order. *)
Theorem filter_catalog_gives_group (p : pyval → bool)
    (groups : list (list pyval)) (i : nat) (g : list pyval) :
  groups !! i = Some g →
  Forall (λ r, p r = true) g →
  (∀ i' g', i' ≠ i → groups !! i' = Some g' → Forall (λ r, p r = false) g') →
  filter (λ r, p r = true) (build_catalog groups) = g.
Proof.
  intros Hg Hin Hout.
  rewrite (build_catalog_split groups i g Hg), !build_catalog_concat.
  rewrite !filter_app, (filter_keeps_all p g Hin).
  rewrite !filter_concat_drops_all; [by rewrite app_nil_r|..].
  - intros g' [k Hk]%list_elem_of_lookup.
    rewrite lookup_drop in Hk. apply (Hout (S i + k)%nat); [lia | done].
  - intros g' [k Hk]%list_elem_of_lookup.
    apply lookup_take_Some in Hk as [Hk Hlt].
    apply (Hout k); [lia | done].
Qed.

(** The script's catalog, filtered on year 2025, is [scenarios_2025]. *)
Lemma filter_catalog_gives_group_witness :
  filter (λ r, in_year 2025 r = true)
         (build_catalog [scenarios_2010; scenarios_2025; scenarios_2040])
  = scenarios_2025.
Proof.
  refine (filter_catalog_gives_group (in_year 2025)
            [scenarios_2010; scenarios_2025; scenarios_2040] 1 scenarios_2025
            eq_refl _ _).
  - repeat (apply List.Forall_cons; [vm_compute; reflexivity|]).
    apply List.Forall_nil.
  - intros [|[|[|i']]] g' Hne Hg'; simplify_eq/=;
      repeat (apply List.Forall_cons; [vm_compute; reflexivity|]);
      apply List.Forall_nil.
Defined.

(** X6: any per-record view of the catalog is the concatenation of the
    same view of the groups, and rewriting every record before building
    is rewriting every record of the catalog: the builder looks into no
    record. *)
Theorem build_catalog_commutes_with_views {B : Type} (view : pyval → B)
    (rewrite_record : pyval → pyval) (groups : list (list pyval)) :
  map view (build_catalog groups) = concat (map (map view) groups)
  ∧ build_catalog (map (map rewrite_record) groups)
    = map rewrite_record (build_catalog groups).
Proof.
  rewrite !build_catalog_concat. split.
  - induction groups as [|g rest IH]; simpl; [done|].
    by rewrite map_app, IH.
  - induction groups as [|g rest IH]; simpl; [done|].
    by rewrite map_app, IH.
Qed.

(** * Further properties of the run *)

(** X7: what the collaborator is handed.  Whatever [make_plots] does, the
    one call the script adds carries a dict with the three keys, the run
    name [20thSep2019], the home directory [/home/ubuntu/git/jupyter/data]
    and, under [scenarios], the 19 records of the 2010, 2025 and 2040 lists
    in that order, each a well-formed scenario tuple. *)
Theorem collaborator_receives_the_catalog
    (smartdata_setup : smartdata_setup_module) (t : list event) :
  ∃ config catalog,
    calls (main smartdata_setup t).2 = (calls t ++ [config])%list
    ∧ dom config = ({[ "run_name"; "home_dir"; "scenarios" ]} : gset string)
    ∧ config !! "run_name" = Some (PyStr "20thSep2019")
    ∧ config !! "home_dir" = Some (PyStr "/home/ubuntu/git/jupyter/data")
    ∧ config !! "scenarios" = Some (PyList catalog)
    ∧ catalog = (scenarios_2010 ++ scenarios_2025 ++ scenarios_2040)%list
    ∧ length catalog = 19%nat
    ∧ Forall (λ r, is_scenario_record r = true) catalog.
Proof.
  exists setup_config_dict, scenarios.
  split.
  { rewrite main_run.
    destruct (make_plots smartdata_setup setup_config_dict); simpl;
      rewrite calls_app; simpl; done. }
  rewrite setup_config_dict_build.
  split; [apply build_run_config_dom|].
  split; [apply build_run_config_lookup_run_name|].
  split; [apply build_run_config_lookup_home_dir|].
  split; [apply build_run_config_lookup_scenarios|].
  split; [reflexivity|].
  split; [reflexivity|].
  check_each_record.
Qed.

(** X8: the script from its first line.  The run ends normally exactly
    when END was printed, and exactly when both the import and the call
    returned; a failed import ends the run with the import's exception, no
    call and no output; events already there are never touched, and at most
    one call is added. *)
Theorem run_script_prints_END_iff_normal_end
    (import_smartdata_setup : outcome smartdata_setup_module)
    (t : list event) :
  let run := run_script import_smartdata_setup t in
  (run.1 = Returned tt ↔ printed run.2 = (printed t ++ ["END"])%list)
  ∧ (run.1 = Returned tt
     ↔ ∃ m v, import_smartdata_setup = Returned m
              ∧ make_plots m setup_config_dict = Returned v)
  ∧ (∀ e, import_smartdata_setup = Raised e → run = (Raised e, t))
  ∧ t `prefix_of` run.2
  ∧ (length (calls run.2) ≤ S (length (calls t)))%nat.
Proof.
  intros run. subst run. unfold run_script.
  assert (∀ l : list string, l ≠ (l ++ ["END"])%list) as Hne.
  { intros l Heq. apply (f_equal length) in Heq.
    rewrite length_app in Heq. simpl in Heq. lia. }
  destruct import_smartdata_setup as [m|e]; simpl.
  - rewrite main_run.
    destruct (make_plots m setup_config_dict) as [v|e] eqn:Hcall; simpl;
      rewrite calls_app, printed_app, length_app; simpl.
    + repeat split; try done; eauto using prefix_app_r; lia.
    + rewrite app_nil_r. repeat split; try done; try lia.
      * by intros ?%Hne.
      * intros (m' & v & Hm & Hv). simplify_eq. congruence.
      * by eexists.
  - repeat split; try done; try lia.
    + by intros ?%Hne.
    + by intros (m' & v & Hm & Hv).
    + congruence.
Qed.

(** * Further properties of the tuples *)

Ltac by_evaluation := apply (bool_decide_unpack _); vm_compute; exact I.

(** X9: an id names the same scenario in every year.  Over all tuples of
    the source, enabled or commented out, two tuples have the same id
    exactly when they have the same slug, and then the same group and
    technology label; inside each year list the slugs are all different. *)
Theorem id_names_one_scenario :
  (∀ r1 r2, r1 ∈ declared → r2 ∈ declared →
     (rec_id r1 = rec_id r2 ↔ rec_slug r1 = rec_slug r2)
     ∧ (rec_id r1 = rec_id r2 →
        rec_group r1 = rec_group r2 ∧ rec_tech_label r1 = rec_tech_label r2))
  ∧ NoDup (rec_slug <$> scenarios_2010)
  ∧ NoDup (rec_slug <$> scenarios_2025)
  ∧ NoDup (rec_slug <$> scenarios_2040).
Proof.
  split; [|repeat split; by_evaluation].
  assert (Forall (λ r1, Forall (λ r2,
            (rec_id r1 = rec_id r2 ↔ rec_slug r1 = rec_slug r2)
            ∧ (rec_id r1 = rec_id r2 →
               rec_group r1 = rec_group r2
               ∧ rec_tech_label r1 = rec_tech_label r2)) declared) declared)
    as Hall by by_evaluation.
  intros r1 r2 Hr1 Hr2.
  rewrite Forall_forall in Hall. specialize (Hall r1 Hr1).
  rewrite Forall_forall in Hall. exact (Hall r2 Hr2).
Qed.

(** X10: the catalog is in strictly ascending order of (year, id): years
    ascend from group to group and ids ascend inside each group. *)
Theorem catalog_sorted_by_year_then_id :
  StronglySorted year_id_lt (year_id <$> scenarios).
Proof. by_evaluation. Qed.

(** X11: every tuple of the source, enabled or commented out, has a
    (year, id) pair and a source URI that no other tuple has. *)
Theorem declared_tuples_are_distinct :
  NoDup (year_id <$> declared) ∧ NoDup (rec_source_uri <$> declared).
Proof. split; by_evaluation. Qed.
